(** * forta-node, package [ethereum]: the nonce- and gas-price-tracking
      wrapper of the go-ethereum client (src/ethereum/contract_backend.go)

    The wrapper [contractBackend] decorates a [bind.ContractBackend]
    delegate and intercepts three of its methods.  The embedding below is a
    shallow one: every Go method becomes a computation in a small
    state-and-panic monad over the wrapper's fields, the delegate it holds
    and the clock it reads.

    Conventions.
    - [uint64] is [Z] with the wrap-around of Go's arithmetic written out
      ([wrap64]).
    - [*big.Int] is [option Z] ([None] is the nil pointer).  The delegate
      ([ethclient.Client]) allocates a fresh number for every reply and no
      method of the wrapper writes through a pointer it has handed out, so
      numbers are modelled by value.
    - [time.Time] is an instant in nanoseconds counted from the zero
      [time.Time]; [time.Duration] is a signed 64-bit count of nanoseconds
      and [Time.Sub] saturates, as in Go.
    - Log output is not modelled, but evaluating the arguments of a log
      call is: [getTxLogger] dereferences [tx.To()]. *)

From Stdlib Require Import ZArith List String Bool Lia.
Import ListNotations.
Local Open Scope Z_scope.

(** ** Machine integers, big integers, time *)

Definition uint64 := Z.

Definition wrap64 (z : Z) : uint64 := z mod 2 ^ 64.

Definition maxUint64 : uint64 := 2 ^ 64 - 1.

Definition is_uint64 (z : Z) : Prop := 0 <= z <= maxUint64.

Definition bigInt := Z.

(** [x.Cmp(y)] of math/big: -1, 0 or +1. *)
Definition big_Cmp (x y : bigInt) : Z :=
  match x ?= y with
  | Lt => -1
  | Eq => 0
  | Gt => 1
  end.

(** [x.Uint64()] of math/big: the low 64 bits of the magnitude. *)
Definition big_Uint64 (x : bigInt) : uint64 := wrap64 (Z.abs x).

Definition Time := Z.
Definition Duration := Z.

Definition minDuration : Duration := - 2 ^ 63.
Definition maxDuration : Duration := 2 ^ 63 - 1.
Definition Nanosecond : Duration := 1.
Definition Second : Duration := 1000000000 * Nanosecond.
Definition Minute : Duration := 60 * Second.

(** [t.Sub(u)]: the difference, saturated to the range of [Duration]. *)
Definition time_Sub (t u : Time) : Duration :=
  let d := t - u in
  if d <? minDuration then minDuration
  else if maxDuration <? d then maxDuration
  else d.

(** The clock of the process: the sequence of the instants it will report,
    and how many have been read. *)
Record Clock := mkClock {
  readings : nat -> Time;
  cursor : nat
}.

Definition clock_peek (c : Clock) : Time := readings c (cursor c).
Definition clock_tick (c : Clock) : Clock := mkClock (readings c) (S (cursor c)).

(** ** Errors, addresses, transactions *)

(** A Go [error] value: what its [Error()] method prints, and a code that
    tells apart errors printing the same text. *)
Record error := mkError {
  Error : string;
  errCode : Z
}.

Definition Address := Z.

(** The accessors of [types.Transaction] that the wrapper calls. *)
Record Transaction := mkTransaction {
  To : option Address;      (* nil for a contract creation *)
  Nonce : uint64;
  Gas : uint64;
  GasPrice : bigInt;
  Hash : Z
}.

(** ** The monad of Go method bodies: state passing, with panics *)

Inductive Outcome (S A : Type) : Type :=
| Returns (a : A) (s : S)
| Panics.
Arguments Returns {S A} a s.
Arguments Panics {S A}.

Definition Go (S A : Type) : Type := S -> Outcome S A.

Definition ret {S A} (a : A) : Go S A := fun s => Returns a s.

Definition bind {S A B} (m : Go S A) (k : A -> Go S B) : Go S B :=
  fun s =>
    match m s with
    | Returns a s' => k a s'
    | Panics => Panics
    end.

Definition panic {S A} : Go S A := fun _ => Panics.

Declare Scope go_scope.
Delimit Scope go_scope with go.
Notation "x <- m ;; k" := (bind m (fun x => k))
  (at level 100, m at next level, right associativity) : go_scope.
Notation "' p <- m ;; k" := (bind m (fun x => let p := x in k))
  (at level 100, p pattern, m at next level, right associativity) : go_scope.
Notation "m ;; k" := (bind m (fun _ => k))
  (at level 100, right associativity) : go_scope.
Local Open Scope go_scope.

(** ** The interface [bind.ContractBackend]

    Only the three methods the wrapper intercepts; every other method is
    promoted from the embedded delegate untouched.  A method returns what
    the Go method returns, value and error side by side. *)

Module bind.

Class ContractBackend (B : Type) := {
  SuggestGasPrice : Go B (option bigInt * option error);
  PendingNonceAt : Address -> Go B (uint64 * option error);
  SendTransaction : Transaction -> Go B (option error)
}.

End bind.

(** ** The wrapper *)

Definition maxNonceDrift : uint64 := 50.

Definition errStrReplacementTx : string := "replacement transaction underpriced"%string.

(** The struct [contractBackend]; [ContractBackend] is its embedded
    delegate. *)
Record contractBackend (D : Type) := mkContractBackend {
  localNonce : uint64;
  lastServerNonce : uint64;
  gasPrice : option bigInt;
  gasPriceUpdated : Time;
  maxPrice : option bigInt;
  ContractBackend : D
}.
Arguments mkContractBackend {D}.
Arguments localNonce {D}.
Arguments lastServerNonce {D}.
Arguments gasPrice {D}.
Arguments gasPriceUpdated {D}.
Arguments maxPrice {D}.
Arguments ContractBackend {D}.

(** What a method of the wrapper runs in: the receiver [cb] and the
    clock. *)
Record World (D : Type) := mkWorld {
  cb : contractBackend D;
  clock : Clock
}.
Arguments mkWorld {D}.
Arguments cb {D}.
Arguments clock {D}.

(** Modelled from the spec: [utils.AddPercentage] of the repository's
    package utils is not among the sources.  The spec has a fixed markup of
    [percentage] per cent, "rounded per integer arithmetic rules"; the call
    site drops the result, so the number is updated in place and the new
    content is what this returns. *)
Definition AddPercentage (num : bigInt) (percentage : Z) : bigInt :=
  num + num * percentage / 100.

(** The fields [getTxLogger] attaches to the log entry of a
    transaction. *)
Record TxFields := mkTxFields {
  f_to : Address;
  f_nonce : uint64;
  f_gasLimit : uint64;
  f_gasPrice : uint64;
  f_hash : Z
}.

Section Wrapper.

Context {D : Type} `{Delegate : bind.ContractBackend D}.

Definition NewContractBackend (client : D) (maxPrice : option bigInt)
  : contractBackend D :=
  {| localNonce := 0;
     lastServerNonce := 0;
     gasPrice := None;
     gasPriceUpdated := 0;
     maxPrice := maxPrice;
     ContractBackend := client |}.

(** *** Reading and writing the receiver, the clock, the delegate *)

Definition field {A} (proj : contractBackend D -> A) : Go (World D) A :=
  fun w => Returns (proj (cb w)) w.

Definition assign (upd : contractBackend D -> contractBackend D)
  : Go (World D) unit :=
  fun w => Returns tt (mkWorld (upd (cb w)) (clock w)).

Definition set_localNonce (v : uint64) (c : contractBackend D) :=
  mkContractBackend v (lastServerNonce c) (gasPrice c) (gasPriceUpdated c)
    (maxPrice c) (ContractBackend c).

Definition set_lastServerNonce (v : uint64) (c : contractBackend D) :=
  mkContractBackend (localNonce c) v (gasPrice c) (gasPriceUpdated c)
    (maxPrice c) (ContractBackend c).

Definition set_gasPrice (v : option bigInt) (c : contractBackend D) :=
  mkContractBackend (localNonce c) (lastServerNonce c) v (gasPriceUpdated c)
    (maxPrice c) (ContractBackend c).

Definition set_gasPriceUpdated (v : Time) (c : contractBackend D) :=
  mkContractBackend (localNonce c) (lastServerNonce c) (gasPrice c) v
    (maxPrice c) (ContractBackend c).

Definition set_ContractBackend (v : D) (c : contractBackend D) :=
  mkContractBackend (localNonce c) (lastServerNonce c) (gasPrice c)
    (gasPriceUpdated c) (maxPrice c) v.

(** [time.Now()]. *)
Definition time_Now : Go (World D) Time :=
  fun w => Returns (clock_peek (clock w)) (mkWorld (cb w) (clock_tick (clock w))).

(** [time.Since(t)] is [time.Now().Sub(t)]. *)
Definition time_Since (t : Time) : Go (World D) Duration :=
  now <- time_Now ;;
  ret (time_Sub now t).

(** A call [cb.ContractBackend.m(...)] on the embedded delegate. *)
Definition delegated {A} (m : Go D A) : Go (World D) A :=
  fun w =>
    match m (ContractBackend (cb w)) with
    | Returns a d' => Returns a (mkWorld (set_ContractBackend d' (cb w)) (clock w))
    | Panics => Panics
    end.

(** *** The methods, in the order of the source *)

Definition SuggestGasPrice : Go (World D) (option bigInt * option error) :=
  cached <- field gasPrice ;;
  hit <- match cached with
         | None => ret false
         | Some _ =>
             updated <- field gasPriceUpdated ;;
             age <- time_Since updated ;;
             ret (age <? 1 * Minute)
         end ;;
  if hit : bool then ret (cached, None)
  else
    ' (gp, err) <- delegated bind.SuggestGasPrice ;;
    match err with
    | Some e => ret (None, Some e)
    | None =>
        match gp with
        | None => panic        (* arithmetic on a nil *big.Int *)
        | Some g =>
            let g := AddPercentage g 10 in
            ceiling <- field maxPrice ;;
            if match ceiling with
               | Some mx => big_Cmp g mx =? 1
               | None => false
               end
            then ret (ceiling, None)
            else
              now <- time_Now ;;
              assign (set_gasPriceUpdated now) ;;
              assign (set_gasPrice (Some g)) ;;
              ret (Some g, None)
        end
    end.

Definition resetNonce : Go (World D) unit :=
  server <- field lastServerNonce ;;
  loc <- field localNonce ;;
  if server <? loc then assign (set_localNonce server) else ret tt.

Definition PendingNonceAt (account : Address) : Go (World D) (uint64 * option error) :=
  ' (n, err) <- delegated (bind.PendingNonceAt account) ;;
  assign (set_lastServerNonce n) ;;
  match err with
  | Some e => ret (0, Some e)
  | None =>
      loc <- field localNonce ;;
      server <- field lastServerNonce ;;
      if loc =? 0 then ret (server, None)
      else if (loc >? server) && (wrap64 (loc - server) >=? maxNonceDrift) then
        resetNonce ;;
        server' <- field lastServerNonce ;;
        ret (server', None)
      else ret (loc, None)
  end.

Definition isReplacementErr (err : error) : bool :=
  String.eqb (Error err) errStrReplacementTx.

Definition incrementNonce (tx : Transaction) : Go (World D) unit :=
  let newNonce := wrap64 (Nonce tx + 1) in
  loc <- field localNonce ;;
  if newNonce >? loc then assign (set_localNonce newNonce) else ret tt.

(** [tx.To().Hex()] dereferences the recipient: a transaction without one
    makes the method panic before anything is sent. *)
Definition getTxLogger (tx : Transaction) : Go (World D) TxFields :=
  match To tx with
  | None => panic
  | Some a =>
      ret (mkTxFields a (Nonce tx) (Gas tx) (big_Uint64 (GasPrice tx)) (Hash tx))
  end.

Definition SendTransaction (tx : Transaction) : Go (World D) (option error) :=
  getTxLogger tx ;;
  err <- delegated (bind.SendTransaction tx) ;;
  match err with
  | Some e =>
      (if isReplacementErr e then resetNonce else ret tt) ;;
      ret (Some e)
  | None =>
      incrementNonce tx ;;
      ret None
  end.

(** The wrapper is itself a [bind.ContractBackend]: this is what
    [NewContractBackend] hands to its caller. *)
#[global] Instance contractBackend_ContractBackend : bind.ContractBackend (World D) :=
  {| bind.SuggestGasPrice := SuggestGasPrice;
     bind.PendingNonceAt := PendingNonceAt;
     bind.SendTransaction := SendTransaction |}.

End Wrapper.

(** ** Sequences of calls on one wrapper *)

Inductive Call :=
| CallSuggestGasPrice
| CallPendingNonceAt (account : Address)
| CallSendTransaction (tx : Transaction).

Section Calls.

Context {D : Type} `{Delegate : bind.ContractBackend D}.

Definition perform (c : Call) : Go (World D) unit :=
  match c with
  | CallSuggestGasPrice => SuggestGasPrice ;; ret tt
  | CallPendingNonceAt account => PendingNonceAt account ;; ret tt
  | CallSendTransaction tx => SendTransaction tx ;; ret tt
  end.

Fixpoint performAll (cs : list Call) : Go (World D) unit :=
  match cs with
  | [] => ret tt
  | c :: cs' => perform c ;; performAll cs'
  end.

(** The cache was filled less than a minute before the instant the clock
    reports next. *)
Definition cacheFresh (w : World D) : Prop :=
  exists p, gasPrice (cb w) = Some p /\
            clock_peek (clock w) - gasPriceUpdated (cb w) < Minute.

(** The cache is empty or a minute old. *)
Definition cacheStale (w : World D) : Prop :=
  gasPrice (cb w) = None \/
  Minute <= clock_peek (clock w) - gasPriceUpdated (cb w).

(** The clock once [SuggestGasPrice] has looked at its cache: the age of
    an empty cache is not computed. *)
Definition clockAfterLookup (w : World D) : Clock :=
  match gasPrice (cb w) with
  | None => clock w
  | Some _ => clock_tick (clock w)
  end.

(** No cached price is above a configured ceiling. *)
Definition cacheWithinCeiling (c : contractBackend D) : Prop :=
  forall mx p, maxPrice c = Some mx -> gasPrice c = Some p -> p <= mx.

End Calls.

(** ** A scripted delegate

    A stand-in for the remote node: per method, the replies it will give,
    in order.  A call with no reply left panics. *)

Module scripted.

Record Node := mkNode {
  gasReplies : list (option bigInt * option error);
  nonceReplies : list (uint64 * option error);
  sendReplies : list (option error)
}.

Definition SuggestGasPrice : Go Node (option bigInt * option error) :=
  fun n =>
    match gasReplies n with
    | [] => Panics
    | r :: rs => Returns r (mkNode rs (nonceReplies n) (sendReplies n))
    end.

Definition PendingNonceAt (_ : Address) : Go Node (uint64 * option error) :=
  fun n =>
    match nonceReplies n with
    | [] => Panics
    | r :: rs => Returns r (mkNode (gasReplies n) rs (sendReplies n))
    end.

Definition SendTransaction (_ : Transaction) : Go Node (option error) :=
  fun n =>
    match sendReplies n with
    | [] => Panics
    | r :: rs => Returns r (mkNode (gasReplies n) (nonceReplies n) rs)
    end.

#[global] Instance Node_ContractBackend : bind.ContractBackend Node :=
  {| bind.SuggestGasPrice := SuggestGasPrice;
     bind.PendingNonceAt := PendingNonceAt;
     bind.SendTransaction := SendTransaction |}.

(** A node that answers nothing. *)
Definition silent : Node := mkNode [] [] [].

(** A clock that starts at [t0] and advances by [step] at every reading. *)
Definition clockFrom (t0 step : Time) : Clock :=
  mkClock (fun n => t0 + step * Z.of_nat n) 0.

Definition errUnderpriced : error := mkError errStrReplacementTx (-32000).
Definition errTimeout : error := mkError "context deadline exceeded"%string 0.

Definition transfer (nonce : uint64) : Transaction :=
  mkTransaction (Some 3735928559) nonce 21000 1000000000 0.

Definition account : Address := 3735928559.

(** A wrapper whose clock starts at [t0] and advances by [step]. *)
Definition world (c : contractBackend Node) (t0 step : Time) : World Node :=
  mkWorld c (clockFrom t0 step).

(** Scenarios: the state of a wrapper and what the node will answer. *)

(** Just constructed; the node will report the pending nonce 7. *)
Definition firstQuery : World Node :=
  world (NewContractBackend (mkNode [] [(7, None)] []) None) 0 1.

(** Tracking 12 over a server nonce of 9; the nonce query will time out,
    the client handing back 0 with the error. *)
Definition failingQuery : World Node :=
  world (mkContractBackend 12 9 (Some 110) 5 None
           (mkNode [] [(0, Some errTimeout)] [])) 0 1.

(** Tracking 60; the node will report the pending nonce 5. *)
Definition drifted : World Node :=
  world (mkContractBackend 60 4 None 0 None (mkNode [] [(5, None)] [])) 0 1.

(** Tracking 12 over a server nonce of 9; the send will be refused as an
    underpriced replacement. *)
Definition underpriced : World Node :=
  world (mkContractBackend 12 9 None 0 None
           (mkNode [] [] [Some errUnderpriced])) 0 1.

(** Tracking 12 over a server nonce of 9; the send will be accepted. *)
Definition accepting : World Node :=
  world (mkContractBackend 12 9 None 0 None (mkNode [] [] [None])) 0 1.

(** Ceiling 100, nothing cached; the node will suggest 95. *)
Definition clamping : World Node :=
  world (NewContractBackend (mkNode [(Some 95, None)] [] []) (Some 100)) 0 1.

(** Ceiling 2000, nothing cached; the node will suggest 1000. *)
Definition quoting : World Node :=
  world (NewContractBackend (mkNode [(Some 1000, None)] [] []) (Some 2000)) 500 1.

(** 1100 cached at instant 100, the clock at 200; the node is silent. *)
Definition cached : World Node :=
  world (mkContractBackend 0 0 (Some 1100) 100 (Some 2000) silent) 200 1.

(** Ceiling 100; the node will suggest 80, then 95, and report the pending
    nonce 7; the clock advances by 40 seconds per reading. *)
Definition session : World Node :=
  world (NewContractBackend
           (mkNode [(Some 80, None); (Some 95, None)] [(7, None)] [])
           (Some 100)) 0 (40 * Second).

(** The calls made in that session, the wrapper after them, and the
    wrapper after one more gas-price query. *)
Definition sessionCalls : list Call :=
  [CallSuggestGasPrice; CallPendingNonceAt account; CallSuggestGasPrice].

Definition sessionLater : World Node :=
  mkWorld (mkContractBackend 0 7 (Some 88) 0 (Some 100)
             (mkNode [(Some 95, None)] [] []))
          (clock_tick (clock_tick (clockFrom 0 (40 * Second)))).

Definition sessionEnd : World Node :=
  mkWorld (mkContractBackend 0 7 (Some 88) 0 (Some 100) silent)
          (clock_tick (clock_tick (clock_tick (clockFrom 0 (40 * Second))))).

End scripted.

(** ** Further scenarios on the scripted delegate *)

(** Whether a call is a send. *)
Definition isSend (c : Call) : bool :=
  match c with
  | CallSendTransaction _ => true
  | _ => false
  end.

Module cases.

Import scripted.

(** Tracking 10; the node will report the pending nonce 8. *)
Definition nearby : World Node :=
  world (mkContractBackend 10 3 None 0 None (mkNode [] [(8, None)] [])) 0 1.

Definition nearbyAfter : World Node :=
  world (mkContractBackend 10 8 None 0 None silent) 0 1.

(** Ceiling 100, 88 cached at instant 0, the clock at 70 seconds; the gas
    price query will fail, a number coming along with the error. *)
Definition gasFailure : World Node :=
  world (mkContractBackend 4 2 (Some 88) 0 (Some 100)
           (mkNode [(Some 77, Some errTimeout)] [] [])) (70 * Second) Second.

(** The same, the node suggesting 95. *)
Definition gasAbove : World Node :=
  world (mkContractBackend 4 2 (Some 88) 0 (Some 100)
           (mkNode [(Some 95, None)] [] [])) (70 * Second) Second.

(** Tracking 12 over a server nonce of 9; the send will time out. *)
Definition rejected : World Node :=
  world (mkContractBackend 12 9 None 0 None (mkNode [] [] [Some errTimeout])) 0 1.


(** Just constructed; the node reports the pending nonce 7 twice and
    accepts a send in between. *)
Definition lagging : World Node :=
  world (NewContractBackend (mkNode [] [(7, None); (7, None)] [None]) None) 0 1.

Definition laggingQueried : World Node :=
  world (mkContractBackend 0 7 None 0 None (mkNode [] [(7, None)] [None])) 0 1.

(** The states the claims' scenarios end in. *)
Definition firstQueried : World Node :=
  world (mkContractBackend 0 7 None 0 None silent) 0 1.

Definition accepted : World Node :=
  world (mkContractBackend 13 9 None 0 None silent) 0 1.

(** Just constructed; a nonce query and a gas price query, then the node
    reports the pending nonce 9. *)
Definition browsing : World Node :=
  world (NewContractBackend (mkNode [(Some 80, None)] [(7, None); (9, None)] []) None)
        0 1.

Definition browsingCalls : list Call :=
  [CallPendingNonceAt account; CallSuggestGasPrice].

Definition browsed : World Node :=
  mkWorld (mkContractBackend 0 7 (Some 88) 0 None (mkNode [] [(9, None)] []))
          (clock_tick (clockFrom 0 1)).

End cases.

(** * Properties *)

(** ** Arithmetic of the model *)

Lemma wrap64_small (z : Z) : 0 <= z < 2 ^ 64 -> wrap64 z = z.
Proof. intros Hz. unfold wrap64. apply Z.mod_small. exact Hz. Qed.

Lemma wrap64_range (z : Z) : 0 <= wrap64 z < 2 ^ 64.
Proof. unfold wrap64. apply Z.mod_pos_bound. reflexivity. Qed.

Lemma wrap64_succ_max : wrap64 (maxUint64 + 1) = 0.
Proof. reflexivity. Qed.

(** Saturation does not change on which side of a minute an age lies. *)
Lemma time_Sub_young (t u : Time) :
  (time_Sub t u <? 1 * Minute) = (t - u <? Minute).
Proof.
  unfold time_Sub, minDuration, maxDuration, Minute, Second, Nanosecond.
  cbv zeta.
  destruct (Z.ltb_spec (t - u) (- 2 ^ 63)) as [Hlo | Hlo].
  - destruct (Z.ltb_spec (t - u) (60 * (1000000000 * 1))); [ reflexivity | lia ].
  - destruct (Z.ltb_spec (2 ^ 63 - 1) (t - u)) as [Hhi | Hhi].
    + destruct (Z.ltb_spec (t - u) (60 * (1000000000 * 1))); [ lia | reflexivity ].
    + reflexivity.
Qed.

Lemma big_Cmp_gt (x y : bigInt) : (big_Cmp x y =? 1) = (y <? x).
Proof.
  unfold big_Cmp. rewrite (Z.ltb_antisym x y), Z.leb_compare.
  destruct (x ?= y); reflexivity.
Qed.

Lemma set_localNonce_same {D} (c : contractBackend D) :
  set_localNonce (localNonce c) c = c.
Proof. destruct c; reflexivity. Qed.

(** ** What each method computes *)

Section MethodFacts.

Context {D : Type} `{Delegate : bind.ContractBackend D}.

Implicit Types (w : World D) (c : contractBackend D).

Ltac go_simpl := cbn -[resetNonce incrementNonce wrap64].

Ltac step_go :=
  unfold bind, ret, panic, field, assign, delegated, time_Since, time_Now;
  go_simpl.

(** [resetNonce] is a minimum. *)
Lemma resetNonce_min w :
  resetNonce w =
  Returns tt (mkWorld (set_localNonce (Z.min (localNonce (cb w)) (lastServerNonce (cb w))) (cb w))
                      (clock w)).
Proof.
  unfold resetNonce. step_go.
  destruct (Z.ltb_spec (lastServerNonce (cb w)) (localNonce (cb w))) as [Hlt | Hge].
  - rewrite Z.min_r by lia. reflexivity.
  - rewrite Z.min_l by lia. rewrite set_localNonce_same. destruct w; reflexivity.
Qed.

(** [incrementNonce] is a maximum, of the tracked nonce and the wrapped
    successor of the transaction's. *)
Lemma incrementNonce_max tx w :
  incrementNonce tx w =
  Returns tt (mkWorld (set_localNonce (Z.max (localNonce (cb w)) (wrap64 (Nonce tx + 1))) (cb w))
                      (clock w)).
Proof.
  unfold incrementNonce. step_go.
  destruct (Z.gtb_spec (wrap64 (Nonce tx + 1)) (localNonce (cb w))) as [Hgt | Hle].
  - rewrite Z.max_r by lia. reflexivity.
  - rewrite Z.max_l by lia. rewrite set_localNonce_same. destruct w; reflexivity.
Qed.

(** A fresh cache answers the call; only the clock has been read. *)
Lemma SuggestGasPrice_hit w p :
  gasPrice (cb w) = Some p ->
  clock_peek (clock w) - gasPriceUpdated (cb w) < Minute ->
  SuggestGasPrice w = Returns (Some p, None) (mkWorld (cb w) (clock_tick (clock w))).
Proof.
  intros Hp Hage. unfold SuggestGasPrice. step_go.
  rewrite Hp. step_go. rewrite time_Sub_young.
  destruct (Z.ltb_spec (clock_peek (clock w) - gasPriceUpdated (cb w)) Minute); [ | lia ].
  reflexivity.
Qed.

Lemma fresh_or_stale w : cacheFresh w \/ cacheStale w.
Proof.
  unfold cacheFresh, cacheStale.
  destruct (gasPrice (cb w)) as [p | ]; [ | right; left; reflexivity ].
  destruct (Z.lt_ge_cases (clock_peek (clock w) - gasPriceUpdated (cb w)) Minute).
  - left. exists p. split; [ reflexivity | assumption ].
  - right. right. assumption.
Qed.

(** The lookup that opens [SuggestGasPrice], when the cache is stale. *)
Ltac stale_lookup w Hstale :=
  unfold SuggestGasPrice, clockAfterLookup; step_go;
  let Hgp := fresh "Hgp" in
  destruct (gasPrice (cb w)) eqn:Hgp;
  [ destruct Hstale as [Hstale | Hstale]; [ congruence | ];
    rewrite time_Sub_young;
    destruct (Z.ltb_spec (clock_peek (clock w) - gasPriceUpdated (cb w)) Minute);
    [ lia | ]
  | ];
  go_simpl.

(** Stale cache, failing delegate: the error comes back and no field of
    the wrapper is written. *)
Lemma SuggestGasPrice_miss_error w gp e d' :
  cacheStale w ->
  bind.SuggestGasPrice (ContractBackend (cb w)) = Returns (gp, Some e) d' ->
  SuggestGasPrice w =
  Returns (None, Some e) (mkWorld (set_ContractBackend d' (cb w)) (clockAfterLookup w)).
Proof.
  intros Hstale Hd. stale_lookup w Hstale; rewrite Hd; reflexivity.
Qed.

(** Stale cache, a marked-up price above the ceiling: the ceiling comes
    back and no field of the wrapper is written. *)
Lemma SuggestGasPrice_miss_clamped w g d' mx :
  cacheStale w ->
  bind.SuggestGasPrice (ContractBackend (cb w)) = Returns (Some g, None) d' ->
  maxPrice (cb w) = Some mx ->
  mx < AddPercentage g 10 ->
  SuggestGasPrice w =
  Returns (Some mx, None) (mkWorld (set_ContractBackend d' (cb w)) (clockAfterLookup w)).
Proof.
  intros Hstale Hd Hmx Hover.
  stale_lookup w Hstale; rewrite Hd; go_simpl; rewrite Hmx, big_Cmp_gt;
    (destruct (Z.ltb_spec mx (AddPercentage g 10)); [ reflexivity | lia ]).
Qed.

(** Stale cache, a marked-up price within the ceiling, or no ceiling: the
    marked-up price comes back and is cached with the instant of
    [time.Now()]. *)
Lemma SuggestGasPrice_miss_cached w g d' :
  cacheStale w ->
  bind.SuggestGasPrice (ContractBackend (cb w)) = Returns (Some g, None) d' ->
  (forall mx, maxPrice (cb w) = Some mx -> AddPercentage g 10 <= mx) ->
  SuggestGasPrice w =
  Returns (Some (AddPercentage g 10), None)
    (mkWorld (set_gasPrice (Some (AddPercentage g 10))
                (set_gasPriceUpdated (clock_peek (clockAfterLookup w))
                   (set_ContractBackend d' (cb w))))
             (clock_tick (clockAfterLookup w))).
Proof.
  intros Hstale Hd Hfit.
  assert (Hno : match maxPrice (cb w) with
                | Some mx => big_Cmp (AddPercentage g 10) mx =? 1
                | None => false
                end = false).
  { destruct (maxPrice (cb w)) as [mx | ]; [ | reflexivity ].
    rewrite big_Cmp_gt. apply Z.ltb_ge. apply Hfit. reflexivity. }
  stale_lookup w Hstale; rewrite Hd; go_simpl; rewrite Hno; reflexivity.
Qed.

Lemma SuggestGasPrice_miss_panics w :
  cacheStale w ->
  bind.SuggestGasPrice (ContractBackend (cb w)) = Panics ->
  SuggestGasPrice w = Panics.
Proof.
  intros Hstale Hd. stale_lookup w Hstale; rewrite Hd; reflexivity.
Qed.

Lemma SuggestGasPrice_miss_nil w d' :
  cacheStale w ->
  bind.SuggestGasPrice (ContractBackend (cb w)) = Returns (None, None) d' ->
  SuggestGasPrice w = Panics.
Proof.
  intros Hstale Hd. stale_lookup w Hstale; rewrite Hd; reflexivity.
Qed.

(** [PendingNonceAt], case by case. *)
Lemma PendingNonceAt_error account w n e d' :
  bind.PendingNonceAt account (ContractBackend (cb w)) = Returns (n, Some e) d' ->
  PendingNonceAt account w =
  Returns (0, Some e)
    (mkWorld (set_lastServerNonce n (set_ContractBackend d' (cb w))) (clock w)).
Proof.
  intros Hd. unfold PendingNonceAt. step_go. rewrite Hd. reflexivity.
Qed.

Lemma PendingNonceAt_first account w s d' :
  localNonce (cb w) = 0 ->
  bind.PendingNonceAt account (ContractBackend (cb w)) = Returns (s, None) d' ->
  PendingNonceAt account w =
  Returns (s, None)
    (mkWorld (set_lastServerNonce s (set_ContractBackend d' (cb w))) (clock w)).
Proof.
  intros Hzero Hd. unfold PendingNonceAt. step_go. rewrite Hd. go_simpl.
  rewrite Hzero. reflexivity.
Qed.

Lemma PendingNonceAt_reset account w s d' :
  0 <= s ->
  localNonce (cb w) < 2 ^ 64 ->
  maxNonceDrift <= localNonce (cb w) - s ->
  bind.PendingNonceAt account (ContractBackend (cb w)) = Returns (s, None) d' ->
  PendingNonceAt account w =
  Returns (s, None)
    (mkWorld (set_localNonce (Z.min (localNonce (cb w)) s)
                (set_lastServerNonce s (set_ContractBackend d' (cb w))))
             (clock w)).
Proof.
  intros Hs Hloc Hdrift Hd. unfold maxNonceDrift in Hdrift.
  unfold PendingNonceAt. step_go. rewrite Hd. go_simpl.
  destruct (Z.eqb_spec (localNonce (cb w)) 0) as [Hzero | _]; [ lia | ].
  destruct (Z.gtb_spec (localNonce (cb w)) s) as [_ | Hle]; [ | lia ].
  rewrite wrap64_small by lia.
  destruct (Z.geb_spec (localNonce (cb w) - s) maxNonceDrift) as [_ | Hlt];
    [ | unfold maxNonceDrift in Hlt; lia ].
  go_simpl. rewrite resetNonce_min. reflexivity.
Qed.

Lemma PendingNonceAt_local account w s d' :
  0 <= s ->
  localNonce (cb w) < 2 ^ 64 ->
  localNonce (cb w) <> 0 ->
  localNonce (cb w) - s < maxNonceDrift ->
  bind.PendingNonceAt account (ContractBackend (cb w)) = Returns (s, None) d' ->
  PendingNonceAt account w =
  Returns (localNonce (cb w), None)
    (mkWorld (set_lastServerNonce s (set_ContractBackend d' (cb w))) (clock w)).
Proof.
  intros Hs Hloc Hnz Hnear Hd. unfold maxNonceDrift in Hnear.
  unfold PendingNonceAt. step_go. rewrite Hd. go_simpl.
  destruct (Z.eqb_spec (localNonce (cb w)) 0) as [Hzero | _]; [ contradiction | ].
  destruct (Z.gtb_spec (localNonce (cb w)) s) as [Hgt | Hle]; [ | reflexivity ].
  rewrite wrap64_small by lia.
  destruct (Z.geb_spec (localNonce (cb w) - s) maxNonceDrift) as [Hge | _];
    [ unfold maxNonceDrift in Hge; lia | reflexivity ].
Qed.

(** [SendTransaction], case by case. *)
Lemma SendTransaction_no_recipient tx w :
  To tx = None -> SendTransaction tx w = Panics.
Proof.
  intros Hto. unfold SendTransaction, getTxLogger. rewrite Hto. reflexivity.
Qed.

Lemma SendTransaction_failure tx w e d' :
  To tx <> None ->
  bind.SendTransaction tx (ContractBackend (cb w)) = Returns (Some e) d' ->
  SendTransaction tx w =
  Returns (Some e)
    (mkWorld (if isReplacementErr e
              then set_localNonce (Z.min (localNonce (cb w)) (lastServerNonce (cb w)))
                     (set_ContractBackend d' (cb w))
              else set_ContractBackend d' (cb w))
             (clock w)).
Proof.
  intros Hto Hd. unfold SendTransaction, getTxLogger.
  destruct (To tx) as [a | ]; [ | contradiction ].
  step_go. rewrite Hd. go_simpl.
  destruct (isReplacementErr e); [ | reflexivity ].
  rewrite resetNonce_min. reflexivity.
Qed.

Lemma SendTransaction_success tx w d' :
  To tx <> None ->
  bind.SendTransaction tx (ContractBackend (cb w)) = Returns None d' ->
  SendTransaction tx w =
  Returns None
    (mkWorld (set_localNonce (Z.max (localNonce (cb w)) (wrap64 (Nonce tx + 1)))
                (set_ContractBackend d' (cb w)))
             (clock w)).
Proof.
  intros Hto Hd. unfold SendTransaction, getTxLogger.
  destruct (To tx) as [a | ]; [ | contradiction ].
  step_go. rewrite Hd. go_simpl.
  rewrite incrementNonce_max. reflexivity.
Qed.

(** ** The ceiling as an invariant of the cache *)

Lemma NewContractBackend_within (client : D) mx :
  cacheWithinCeiling (NewContractBackend client mx).
Proof. intros m p _ Hp. discriminate Hp. Qed.

(** Whatever [SuggestGasPrice] returns, it leaves the ceiling alone, keeps
    the cache within it, and a price it returns is within it too. *)
Lemma SuggestGasPrice_within w r w' :
  cacheWithinCeiling (cb w) ->
  SuggestGasPrice w = Returns r w' ->
  maxPrice (cb w') = maxPrice (cb w) /\
  cacheWithinCeiling (cb w') /\
  (forall p e mx, r = (Some p, e) -> maxPrice (cb w) = Some mx -> p <= mx).
Proof.
  intros Hinv Hrun.
  destruct (fresh_or_stale w) as [[p [Hp Hage]] | Hstale].
  - rewrite (SuggestGasPrice_hit w p Hp Hage) in Hrun.
    injection Hrun as <- <-. cbn.
    repeat split; [ exact Hinv | ].
    intros q e mx [= <-] Hmx. exact (Hinv mx p Hmx Hp).
  - destruct (bind.SuggestGasPrice (ContractBackend (cb w))) as [[gp err] d' | ] eqn:Hd.
    2:{ rewrite (SuggestGasPrice_miss_panics w Hstale Hd) in Hrun. discriminate Hrun. }
    destruct err as [e | ].
    { rewrite (SuggestGasPrice_miss_error w gp e d' Hstale Hd) in Hrun.
      injection Hrun as <- <-. cbn.
      repeat split; [ exact Hinv | intros q e' mx [=] ]. }
    destruct gp as [g | ].
    2:{ rewrite (SuggestGasPrice_miss_nil w d' Hstale Hd) in Hrun. discriminate Hrun. }
    destruct (maxPrice (cb w)) as [mx | ] eqn:Hmx.
    + destruct (Z.lt_ge_cases mx (AddPercentage g 10)) as [Hover | Hfit].
      * rewrite (SuggestGasPrice_miss_clamped w g d' mx Hstale Hd Hmx Hover) in Hrun.
        injection Hrun as <- <-. cbn.
        repeat split; [ exact Hmx | | ].
        -- intros m q Hm Hq. cbn in Hm, Hq. exact (Hinv m q Hm Hq).
        -- intros q e m [= <-] [= <-]. lia.
      * rewrite (SuggestGasPrice_miss_cached w g d' Hstale Hd) in Hrun.
        2:{ intros m Hm. rewrite Hmx in Hm. injection Hm as <-. exact Hfit. }
        injection Hrun as <- <-. cbn.
        repeat split; [ exact Hmx | | ].
        -- intros m q Hm Hq. cbn in Hm, Hq. rewrite Hmx in Hm.
           injection Hm as <-. injection Hq as <-. exact Hfit.
        -- intros q e m [= <-] [= <-]. exact Hfit.
    + rewrite (SuggestGasPrice_miss_cached w g d' Hstale Hd) in Hrun.
      2:{ intros m Hm. rewrite Hmx in Hm. discriminate Hm. }
      injection Hrun as <- <-. cbn.
      repeat split; [ exact Hmx | | ].
      -- intros m q Hm Hq. cbn in Hm. rewrite Hmx in Hm. discriminate Hm.
      -- intros q e m _ [=].
Qed.

(** The nonce methods do not touch the gas-price fields. *)
Lemma PendingNonceAt_gas_frame account w r w' :
  PendingNonceAt account w = Returns r w' ->
  maxPrice (cb w') = maxPrice (cb w) /\
  gasPrice (cb w') = gasPrice (cb w) /\
  gasPriceUpdated (cb w') = gasPriceUpdated (cb w).
Proof.
  unfold PendingNonceAt. step_go.
  destruct (bind.PendingNonceAt account (ContractBackend (cb w))) as [[n err] d' | ];
    [ | discriminate ].
  destruct err as [e | ]; go_simpl.
  - intros [= <- <-]. cbn. auto.
  - destruct (localNonce (cb w) =? 0).
    + intros [= <- <-]. cbn. auto.
    + destruct ((localNonce (cb w) >? n) && (wrap64 (localNonce (cb w) - n) >=? maxNonceDrift)).
      * go_simpl. rewrite resetNonce_min. intros [= <- <-]. cbn. auto.
      * intros [= <- <-]. cbn. auto.
Qed.

Lemma SendTransaction_gas_frame tx w r w' :
  SendTransaction tx w = Returns r w' ->
  maxPrice (cb w') = maxPrice (cb w) /\
  gasPrice (cb w') = gasPrice (cb w) /\
  gasPriceUpdated (cb w') = gasPriceUpdated (cb w).
Proof.
  destruct (To tx) as [a | ] eqn:Hto.
  2:{ rewrite (SendTransaction_no_recipient tx w Hto). discriminate. }
  assert (Hsome : To tx <> None) by congruence.
  destruct (bind.SendTransaction tx (ContractBackend (cb w))) as [[e | ] d' | ] eqn:Hd.
  - rewrite (SendTransaction_failure tx w e d' Hsome Hd).
    intros [= <- <-]. destruct (isReplacementErr e); cbn; auto.
  - rewrite (SendTransaction_success tx w d' Hsome Hd).
    intros [= <- <-]. cbn. auto.
  - unfold SendTransaction, getTxLogger. rewrite Hto. step_go. rewrite Hd.
    discriminate.
Qed.

Lemma perform_within (call : Call) w w' :
  cacheWithinCeiling (cb w) ->
  perform call w = Returns tt w' ->
  maxPrice (cb w') = maxPrice (cb w) /\ cacheWithinCeiling (cb w').
Proof.
  intros Hinv. destruct call as [ | account | tx ]; unfold perform, bind, ret.
  - destruct (SuggestGasPrice w) as [r w1 | ] eqn:Hrun; [ | discriminate ].
    intros [= <-]. destruct (SuggestGasPrice_within w r w1 Hinv Hrun) as [Hmx [Hin _]].
    split; assumption.
  - destruct (PendingNonceAt account w) as [r w1 | ] eqn:Hrun; [ | discriminate ].
    intros [= <-]. destruct (PendingNonceAt_gas_frame account w r w1 Hrun) as [Hmx [Hgp _]].
    split; [ exact Hmx | ]. intros m q Hm Hq. rewrite Hmx in Hm. rewrite Hgp in Hq.
    exact (Hinv m q Hm Hq).
  - destruct (SendTransaction tx w) as [r w1 | ] eqn:Hrun; [ | discriminate ].
    intros [= <-]. destruct (SendTransaction_gas_frame tx w r w1 Hrun) as [Hmx [Hgp _]].
    split; [ exact Hmx | ]. intros m q Hm Hq. rewrite Hmx in Hm. rewrite Hgp in Hq.
    exact (Hinv m q Hm Hq).
Qed.

Lemma performAll_within cs : forall w w',
  cacheWithinCeiling (cb w) ->
  performAll cs w = Returns tt w' ->
  maxPrice (cb w') = maxPrice (cb w) /\ cacheWithinCeiling (cb w').
Proof.
  induction cs as [ | call cs IH ]; intros w w' Hinv.
  - intros [= <-]. split; [ reflexivity | exact Hinv ].
  - cbn [performAll]. unfold bind at 1.
    destruct (perform call w) as [[] w1 | ] eqn:Hone; [ | discriminate ].
    intros Hrest.
    destruct (perform_within call w w1 Hinv Hone) as [Hmx1 Hinv1].
    destruct (IH w1 w' Hinv1 Hrest) as [Hmx Hinv'].
    split; [ congruence | exact Hinv' ].
Qed.

End MethodFacts.

(** ** The claims *)

Section Claims.

Context {D : Type} `{Delegate : bind.ContractBackend D}.

Implicit Types (w : World D).

(** C1 (as amended).  When [localNonce] is still zero and the delegate's
    query succeeds with the server nonce [s], [PendingNonceAt] returns [s]
    and records it as [lastServerNonce]; [localNonce] is not written and
    stays zero. *)
Theorem C1_first_query_returns_server_nonce account w s d' :
  localNonce (cb w) = 0 ->
  bind.PendingNonceAt account (ContractBackend (cb w)) = Returns (s, None) d' ->
  exists w',
    PendingNonceAt account w = Returns (s, None) w' /\
    lastServerNonce (cb w') = s /\
    localNonce (cb w') = 0.
Proof.
  intros Hzero Hd. eexists. split.
  - exact (PendingNonceAt_first account w s d' Hzero Hd).
  - cbn. split; [ reflexivity | exact Hzero ].
Qed.

(** C3.  When the delegate's query succeeds with the server nonce [s] and
    [localNonce] is non-zero and at least 50 above [s], [PendingNonceAt]
    returns [s] and [localNonce] becomes [min localNonce s]: it is pulled
    down to the server value, never raised. *)
Theorem C3_drift_resets_to_server_nonce account w s d' :
  is_uint64 s ->
  is_uint64 (localNonce (cb w)) ->
  localNonce (cb w) <> 0 ->
  localNonce (cb w) - s >= 50 ->
  bind.PendingNonceAt account (ContractBackend (cb w)) = Returns (s, None) d' ->
  exists w',
    PendingNonceAt account w = Returns (s, None) w' /\
    localNonce (cb w') = Z.min (localNonce (cb w)) s /\
    localNonce (cb w') = s /\
    localNonce (cb w') <= localNonce (cb w).
Proof.
  unfold is_uint64, maxUint64. intros Hs Hloc _ Hdrift Hd. eexists. split.
  - apply (PendingNonceAt_reset account w s d'); [ lia | lia | | exact Hd ].
    unfold maxNonceDrift. lia.
  - cbn. lia.
Qed.

(** C4.  When the delegate's send fails and the error prints exactly
    "replacement transaction underpriced", [SendTransaction] returns that
    very error and [localNonce] becomes [min localNonce lastServerNonce]. *)
Theorem C4_underpriced_replacement_resets_nonce tx w e d' :
  To tx <> None ->
  bind.SendTransaction tx (ContractBackend (cb w)) = Returns (Some e) d' ->
  Error e = errStrReplacementTx ->
  exists w',
    SendTransaction tx w = Returns (Some e) w' /\
    localNonce (cb w') = Z.min (localNonce (cb w)) (lastServerNonce (cb w)) /\
    lastServerNonce (cb w') = lastServerNonce (cb w).
Proof.
  intros Hto Hd Hmsg. eexists. split.
  - exact (SendTransaction_failure tx w e d' Hto Hd).
  - unfold isReplacementErr. rewrite Hmsg, String.eqb_refl. cbn.
    split; reflexivity.
Qed.

(** C5 (as amended).  When the delegate's send of a transaction of nonce
    [n] succeeds, [SendTransaction] returns no error and [localNonce]
    becomes [max localNonce ((n + 1) mod 2^64)], which is
    [max localNonce (n + 1)] for every [n] below [2^64 - 1]; [localNonce]
    never moves backward. *)
Theorem C5_successful_send_advances_nonce tx w d' :
  To tx <> None ->
  bind.SendTransaction tx (ContractBackend (cb w)) = Returns None d' ->
  exists w',
    SendTransaction tx w = Returns None w' /\
    localNonce (cb w') = Z.max (localNonce (cb w)) (wrap64 (Nonce tx + 1)) /\
    (0 <= Nonce tx < maxUint64 ->
     localNonce (cb w') = Z.max (localNonce (cb w)) (Nonce tx + 1)) /\
    localNonce (cb w) <= localNonce (cb w').
Proof.
  intros Hto Hd. eexists. split.
  - exact (SendTransaction_success tx w d' Hto Hd).
  - cbn -[wrap64]. split; [ reflexivity | split ].
    + unfold maxUint64. intros Hn. rewrite wrap64_small by lia. reflexivity.
    + apply Z.le_max_l.
Qed.

(** C6.  When the cache is stale, the delegate suggests [g] and the
    marked-up price is strictly above the configured ceiling,
    [SuggestGasPrice] returns exactly the ceiling and leaves [gasPrice] and
    [gasPriceUpdated] as they were; with a ceiling of 100 and a suggestion
    of 95 it returns 100. *)
Theorem C6_ceiling_returned_and_not_cached :
  (forall w g d' mx,
     cacheStale w ->
     bind.SuggestGasPrice (ContractBackend (cb w)) = Returns (Some g, None) d' ->
     maxPrice (cb w) = Some mx ->
     mx < AddPercentage g 10 ->
     exists w',
       SuggestGasPrice w = Returns (Some mx, None) w' /\
       gasPrice (cb w') = gasPrice (cb w) /\
       gasPriceUpdated (cb w') = gasPriceUpdated (cb w)) /\
  (forall w d',
     cacheStale w ->
     bind.SuggestGasPrice (ContractBackend (cb w)) = Returns (Some 95, None) d' ->
     maxPrice (cb w) = Some 100 ->
     exists w', SuggestGasPrice w = Returns (Some 100, None) w').
Proof.
  split.
  - intros w g d' mx Hstale Hd Hmx Hover. eexists. split.
    + exact (SuggestGasPrice_miss_clamped w g d' mx Hstale Hd Hmx Hover).
    + cbn. split; reflexivity.
  - intros w d' Hstale Hd Hmx. eexists.
    apply (SuggestGasPrice_miss_clamped w 95 d' 100 Hstale Hd Hmx). reflexivity.
Qed.

(** C7.  When the cache is stale, the delegate suggests [g] and the
    marked-up price is within the ceiling (or no ceiling is configured),
    [SuggestGasPrice] returns [g + floor (g * 10 / 100)] and caches exactly
    that value, stamped with the instant [time.Now()] reports. *)
Theorem C7_markup_returned_and_cached w g d' :
  cacheStale w ->
  bind.SuggestGasPrice (ContractBackend (cb w)) = Returns (Some g, None) d' ->
  (forall mx, maxPrice (cb w) = Some mx -> g + g * 10 / 100 <= mx) ->
  exists w',
    SuggestGasPrice w = Returns (Some (g + g * 10 / 100), None) w' /\
    gasPrice (cb w') = Some (g + g * 10 / 100) /\
    gasPriceUpdated (cb w') = clock_peek (clockAfterLookup w) /\
    clock w' = clock_tick (clockAfterLookup w).
Proof.
  intros Hstale Hd Hfit. eexists. split.
  - exact (SuggestGasPrice_miss_cached w g d' Hstale Hd Hfit).
  - cbn. repeat split.
Qed.

(** C8.  While a price is cached and less than a minute old,
    [SuggestGasPrice] returns exactly the cached value and leaves the whole
    wrapper, the delegate it holds included, as it was: the delegate is not
    called.  A further call within the minute returns the same value. *)
Theorem C8_fresh_cache_answers_without_delegate w p :
  gasPrice (cb w) = Some p ->
  clock_peek (clock w) - gasPriceUpdated (cb w) < Minute ->
  exists w',
    SuggestGasPrice w = Returns (Some p, None) w' /\
    cb w' = cb w /\
    (clock_peek (clock w') - gasPriceUpdated (cb w') < Minute ->
     exists w'',
       SuggestGasPrice w' = Returns (Some p, None) w'' /\ cb w'' = cb w).
Proof.
  intros Hp Hage.
  exists (mkWorld (cb w) (clock_tick (clock w))).
  split; [ exact (SuggestGasPrice_hit w p Hp Hage) | ].
  split; [ reflexivity | ].
  intros Hagain.
  exists (mkWorld (cb w) (clock_tick (clock_tick (clock w)))).
  split; [ | reflexivity ].
  exact (SuggestGasPrice_hit (mkWorld (cb w) (clock_tick (clock w))) p Hp Hagain).
Qed.

(** C9.  On a wrapper constructed with the ceiling [mx], after any
    sequence of calls, a call of [SuggestGasPrice] that returns a price
    without an error returns one that is at most [mx], whether it comes
    from the cache or from the delegate. *)
Theorem C9_price_never_above_ceiling (client : D) clk mx calls w p w' :
  performAll calls (mkWorld (NewContractBackend client (Some mx)) clk) = Returns tt w ->
  SuggestGasPrice w = Returns (Some p, None) w' ->
  p <= mx.
Proof.
  intros Hcalls Hrun.
  destruct (performAll_within calls
              (mkWorld (NewContractBackend client (Some mx)) clk) w
              (NewContractBackend_within client (Some mx)) Hcalls)
    as [Hmx Hinv].
  destruct (SuggestGasPrice_within w _ w' Hinv Hrun) as [_ [_ Hle]].
  apply (Hle p None mx); [ reflexivity | exact Hmx ].
Qed.

(** C10.  When the delegate's send of a transaction whose nonce is
    [2^64 - 1] succeeds, the successor wraps to 0, the test
    [newNonce > localNonce] fails and [localNonce] is left as it was, which
    is not [max localNonce (n + 1)]. *)
Theorem C10_nonce_successor_wraps tx w d' :
  To tx <> None ->
  Nonce tx = maxUint64 ->
  is_uint64 (localNonce (cb w)) ->
  bind.SendTransaction tx (ContractBackend (cb w)) = Returns None d' ->
  wrap64 (Nonce tx + 1) = 0 /\
  (wrap64 (Nonce tx + 1) >? localNonce (cb w)) = false /\
  exists w',
    SendTransaction tx w = Returns None w' /\
    localNonce (cb w') = localNonce (cb w) /\
    localNonce (cb w') <> Z.max (localNonce (cb w)) (Nonce tx + 1).
Proof.
  unfold is_uint64. intros Hto Hn Hloc Hd.
  assert (Hwrap : wrap64 (Nonce tx + 1) = 0) by (rewrite Hn; reflexivity).
  split; [ exact Hwrap | split ].
  - rewrite Hwrap. destruct (Z.gtb_spec 0 (localNonce (cb w))); [ lia | reflexivity ].
  - eexists. split; [ exact (SendTransaction_success tx w d' Hto Hd) | ].
    cbn -[wrap64]. rewrite Hwrap, Hn. unfold maxUint64 in *. lia.
Qed.

End Claims.

(** ** The claims on the scripted delegate *)

(** C1, the claim as stated fails: on the spec's own scenario (nothing
    tracked yet, the server answers 7) the call returns 7 but [localNonce]
    is still 0 afterwards, not 7. *)
Lemma C1_counterexample_localNonce_not_adopted :
  localNonce (cb scripted.firstQuery) = 0 /\
  exists w',
    PendingNonceAt scripted.account scripted.firstQuery = Returns (7, None) w' /\
    localNonce (cb w') = 0 /\
    localNonce (cb w') <> 7.
Proof.
  split; [ reflexivity | ].
  eexists. split; [ reflexivity | ].
  split; [ reflexivity | discriminate ].
Qed.

Lemma C1_witness :
  localNonce (cb scripted.firstQuery) = 0 /\
  exists w',
    PendingNonceAt scripted.account scripted.firstQuery = Returns (7, None) w' /\
    lastServerNonce (cb w') = 7 /\
    localNonce (cb w') = 0.
Proof.
  split; [ reflexivity | ].
  apply (C1_first_query_returns_server_nonce
           scripted.account scripted.firstQuery 7 scripted.silent);
    reflexivity.
Defined.

(** C2, the code at a failing input: tracking 12 over a server nonce of 9,
    the nonce query times out and the client hands back 0 with the error.
    The error is returned and [localNonce] and the gas-price cache are as
    before, but [lastServerNonce] has been overwritten with the 0 that came
    with the error. *)
Theorem C2_failed_query_overwrites_lastServerNonce :
  lastServerNonce (cb scripted.failingQuery) = 9 /\
  PendingNonceAt scripted.account scripted.failingQuery =
    Returns (0, Some scripted.errTimeout)
      (scripted.world
         (mkContractBackend 12 0 (Some 110) 5 None scripted.silent) 0 1) /\
  lastServerNonce
    (mkContractBackend 12 0 (Some 110) 5 None scripted.silent) <> 9.
Proof.
  split; [ reflexivity | ]. split; [ reflexivity | discriminate ].
Qed.

Lemma C3_witness :
  (is_uint64 5 /\ is_uint64 60 /\ 60 <> 0 /\ 60 - 5 >= 50) /\
  exists w',
    PendingNonceAt scripted.account scripted.drifted = Returns (5, None) w' /\
    localNonce (cb w') = Z.min 60 5 /\
    localNonce (cb w') = 5 /\
    localNonce (cb w') <= 60.
Proof.
  assert (H5 : is_uint64 5) by (unfold is_uint64, maxUint64; lia).
  assert (H60 : is_uint64 60) by (unfold is_uint64, maxUint64; lia).
  split; [ split; [ exact H5 | split; [ exact H60 | split; lia ] ] | ].
  apply (C3_drift_resets_to_server_nonce
           scripted.account scripted.drifted 5 scripted.silent);
    [ exact H5 | exact H60 | cbn; lia | cbn; lia | reflexivity ].
Defined.

Lemma C4_witness :
  Error scripted.errUnderpriced = errStrReplacementTx /\
  exists w',
    SendTransaction (scripted.transfer 12) scripted.underpriced =
      Returns (Some scripted.errUnderpriced) w' /\
    localNonce (cb w') = Z.min 12 9 /\
    lastServerNonce (cb w') = 9.
Proof.
  split; [ reflexivity | ].
  apply (C4_underpriced_replacement_resets_nonce
           (scripted.transfer 12) scripted.underpriced
           scripted.errUnderpriced scripted.silent);
    [ discriminate | reflexivity | reflexivity ].
Defined.

(** C5, the claim as stated fails: a send of a transaction whose nonce is
    [2^64 - 1] succeeds and leaves [localNonce] at 12, which is not
    [max 12 (2^64 - 1 + 1)]. *)
Lemma C5_counterexample_maximal_nonce :
  exists w',
    SendTransaction (scripted.transfer maxUint64) scripted.accepting =
      Returns None w' /\
    localNonce (cb w') = 12 /\
    localNonce (cb w') <>
      Z.max (localNonce (cb scripted.accepting))
            (Nonce (scripted.transfer maxUint64) + 1).
Proof.
  eexists. split; [ reflexivity | ].
  split; [ reflexivity | discriminate ].
Qed.

Lemma C5_witness :
  exists w',
    SendTransaction (scripted.transfer 12) scripted.accepting = Returns None w' /\
    localNonce (cb w') = Z.max 12 (wrap64 (12 + 1)) /\
    (0 <= 12 < maxUint64 -> localNonce (cb w') = Z.max 12 (12 + 1)) /\
    12 <= localNonce (cb w').
Proof.
  apply (C5_successful_send_advances_nonce
           (scripted.transfer 12) scripted.accepting scripted.silent);
    [ discriminate | reflexivity ].
Defined.

Lemma C6_witness :
  (cacheStale scripted.clamping /\ 100 < AddPercentage 95 10) /\
  exists w',
    SuggestGasPrice scripted.clamping = Returns (Some 100, None) w' /\
    gasPrice (cb w') = None /\
    gasPriceUpdated (cb w') = 0.
Proof.
  assert (Hstale : cacheStale scripted.clamping) by (left; reflexivity).
  split; [ split; [ exact Hstale | reflexivity ] | ].
  apply (proj1 C6_ceiling_returned_and_not_cached
           scripted.clamping 95 scripted.silent 100);
    [ exact Hstale | reflexivity | reflexivity | reflexivity ].
Defined.

Lemma C7_witness :
  cacheStale scripted.quoting /\
  exists w',
    SuggestGasPrice scripted.quoting = Returns (Some (1000 + 1000 * 10 / 100), None) w' /\
    gasPrice (cb w') = Some (1000 + 1000 * 10 / 100) /\
    gasPriceUpdated (cb w') = 500 /\
    clock w' = clock_tick (scripted.clockFrom 500 1).
Proof.
  assert (Hstale : cacheStale scripted.quoting) by (left; reflexivity).
  split; [ exact Hstale | ].
  apply (C7_markup_returned_and_cached scripted.quoting 1000 scripted.silent);
    [ exact Hstale | reflexivity | ].
  intros mx [= <-]. cbn. lia.
Defined.

Lemma C8_witness :
  (gasPrice (cb scripted.cached) = Some 1100 /\ 200 - 100 < Minute) /\
  exists w',
    SuggestGasPrice scripted.cached = Returns (Some 1100, None) w' /\
    cb w' = cb scripted.cached /\
    (clock_peek (clock w') - gasPriceUpdated (cb w') < Minute ->
     exists w'',
       SuggestGasPrice w' = Returns (Some 1100, None) w'' /\
       cb w'' = cb scripted.cached).
Proof.
  split; [ split; reflexivity | ].
  apply (C8_fresh_cache_answers_without_delegate scripted.cached 1100);
    reflexivity.
Defined.

Lemma C9_witness :
  performAll scripted.sessionCalls scripted.session = Returns tt scripted.sessionLater /\
  SuggestGasPrice scripted.sessionLater = Returns (Some 100, None) scripted.sessionEnd /\
  100 <= 100.
Proof.
  assert (Hcalls : performAll scripted.sessionCalls scripted.session =
                   Returns tt scripted.sessionLater) by (vm_compute; reflexivity).
  assert (Hrun : SuggestGasPrice scripted.sessionLater =
                 Returns (Some 100, None) scripted.sessionEnd) by (vm_compute; reflexivity).
  split; [ exact Hcalls | ]. split; [ exact Hrun | ].
  exact (C9_price_never_above_ceiling
           (scripted.mkNode [(Some 80, None); (Some 95, None)] [(7, None)] [])
           (scripted.clockFrom 0 (40 * Second)) 100
           scripted.sessionCalls scripted.sessionLater 100 scripted.sessionEnd
           Hcalls Hrun).
Defined.

Lemma C10_witness :
  (Nonce (scripted.transfer maxUint64) = maxUint64 /\ is_uint64 12) /\
  wrap64 (maxUint64 + 1) = 0 /\
  (wrap64 (maxUint64 + 1) >? 12) = false /\
  exists w',
    SendTransaction (scripted.transfer maxUint64) scripted.accepting =
      Returns None w' /\
    localNonce (cb w') = 12 /\
    localNonce (cb w') <> Z.max 12 (maxUint64 + 1).
Proof.
  assert (H12 : is_uint64 12) by (unfold is_uint64, maxUint64; lia).
  split; [ split; [ reflexivity | exact H12 ] | ].
  apply (C10_nonce_successor_wraps
           (scripted.transfer maxUint64) scripted.accepting scripted.silent);
    [ discriminate | reflexivity | exact H12 | reflexivity ].
Defined.

(** * Further properties of the wrapper *)

Section Tracking.

Context {D : Type} `{Delegate : bind.ContractBackend D}.

Implicit Types (w : World D).

Ltac run_go :=
  unfold bind, ret, panic, field, assign, delegated, time_Since, time_Now;
  cbn -[resetNonce incrementNonce wrap64].

(** After a query that succeeded, the nonce it returned is the tracked
    one, unless nothing is tracked. *)
Lemma PendingNonceAt_tracked account w r w' :
  PendingNonceAt account w = Returns (r, None) w' ->
  localNonce (cb w') = 0 \/ localNonce (cb w') = r.
Proof.
  unfold PendingNonceAt. run_go.
  destruct (bind.PendingNonceAt account (ContractBackend (cb w))) as [[n err] d' | ];
    [ | discriminate ].
  destruct err as [e | ]; run_go; [ discriminate | ].
  destruct (Z.eqb_spec (localNonce (cb w)) 0) as [Hzero | Hnz].
  - intros [= <- <-]. left. exact Hzero.
  - destruct (Z.gtb_spec (localNonce (cb w)) n) as [Hgt | Hle]; cbn [andb].
    + destruct (wrap64 (localNonce (cb w) - n) >=? maxNonceDrift).
      * run_go. rewrite resetNonce_min. intros [= <- <-]. right. cbn. lia.
      * intros [= <- <-]. right. reflexivity.
    + intros [= <- <-]. right. reflexivity.
Qed.

(** Every outcome of a successful delegate query, by the three cases of
    the switch. *)
Lemma PendingNonceAt_answer account w s d' :
  is_uint64 s ->
  is_uint64 (localNonce (cb w)) ->
  bind.PendingNonceAt account (ContractBackend (cb w)) = Returns (s, None) d' ->
  exists r,
    PendingNonceAt account w =
      Returns (r, None)
        (mkWorld (set_localNonce (if localNonce (cb w) - s >=? maxNonceDrift
                                  then Z.min (localNonce (cb w)) s
                                  else localNonce (cb w))
                    (set_lastServerNonce s (set_ContractBackend d' (cb w))))
                 (clock w)) /\
    r = (if (localNonce (cb w) =? 0) || (localNonce (cb w) - s >=? maxNonceDrift)
         then s else localNonce (cb w)).
Proof.
  unfold is_uint64, maxUint64. intros Hs Hloc Hd.
  destruct (Z.eqb_spec (localNonce (cb w)) 0) as [Hzero | Hnz]; cbn [orb].
  - exists s. split; [ | reflexivity ].
    rewrite (PendingNonceAt_first account w s d' Hzero Hd).
    destruct (Z.geb_spec (localNonce (cb w) - s) maxNonceDrift) as [Hge | Hlt].
    + unfold maxNonceDrift in Hge. lia.
    + reflexivity.
  - destruct (Z.geb_spec (localNonce (cb w) - s) maxNonceDrift) as [Hge | Hlt].
    + exists s. split; [ | reflexivity ].
      apply (PendingNonceAt_reset account w s d'); [ lia | lia | exact Hge | exact Hd ].
    + exists (localNonce (cb w)). split; [ | reflexivity ].
      rewrite (PendingNonceAt_local account w s d'); [ | lia | lia | exact Hnz | exact Hlt | exact Hd ].
      reflexivity.
Qed.

(** X1.  When the delegate's query succeeds with [s] and the tracked nonce
    is non-zero and less than 50 above [s] (or below it), [PendingNonceAt]
    returns the tracked nonce, keeps it, and records [s] as
    [lastServerNonce]. *)
Theorem X1_query_keeps_tracked_nonce account w s d' :
  is_uint64 s ->
  is_uint64 (localNonce (cb w)) ->
  localNonce (cb w) <> 0 ->
  localNonce (cb w) - s < 50 ->
  bind.PendingNonceAt account (ContractBackend (cb w)) = Returns (s, None) d' ->
  exists w',
    PendingNonceAt account w = Returns (localNonce (cb w), None) w' /\
    localNonce (cb w') = localNonce (cb w) /\
    lastServerNonce (cb w') = s.
Proof.
  unfold is_uint64, maxUint64. intros Hs Hloc Hnz Hnear Hd. eexists. split.
  - apply (PendingNonceAt_local account w s d'); [ lia | lia | exact Hnz | exact Hnear | exact Hd ].
  - cbn. split; reflexivity.
Qed.

(** X2.  When the delegate's query succeeds with [s], [PendingNonceAt]
    returns [s] or the tracked nonce, and never a nonce 50 or more above
    [s]; afterwards the tracked nonce is not above what it was, is less
    than 50 above [lastServerNonce = s], and is zero or the nonce
    returned. *)
Theorem X2_query_bounds_drift account w s d' :
  is_uint64 s ->
  is_uint64 (localNonce (cb w)) ->
  bind.PendingNonceAt account (ContractBackend (cb w)) = Returns (s, None) d' ->
  exists r w',
    PendingNonceAt account w = Returns (r, None) w' /\
    (r = s \/ r = localNonce (cb w)) /\
    r - s < 50 /\
    lastServerNonce (cb w') = s /\
    localNonce (cb w') <= localNonce (cb w) /\
    localNonce (cb w') - s < 50 /\
    (localNonce (cb w') = 0 \/ localNonce (cb w') = r).
Proof.
  intros Hs Hloc Hd.
  destruct (PendingNonceAt_answer account w s d' Hs Hloc Hd) as [r [Hrun Hr]].
  exists r. eexists. split; [ exact Hrun | ].
  pose proof (PendingNonceAt_tracked account w r _ Hrun) as Htracked.
  split; [ | split; [ | split; [ reflexivity | split; [ | split; [ | exact Htracked ] ] ] ] ].
  - rewrite Hr. destruct ((localNonce (cb w) =? 0) || _); [ left | right ]; reflexivity.
  - rewrite Hr. unfold is_uint64 in *.
    destruct (Z.eqb_spec (localNonce (cb w)) 0) as [Hzero | Hnz]; cbn [orb]; [ lia | ].
    destruct (Z.geb_spec (localNonce (cb w) - s) maxNonceDrift) as [Hge | Hlt];
      unfold maxNonceDrift in *; lia.
  - cbn. destruct (localNonce (cb w) - s >=? maxNonceDrift); lia.
  - cbn. unfold is_uint64 in *.
    destruct (Z.geb_spec (localNonce (cb w) - s) maxNonceDrift) as [Hge | Hlt];
      unfold maxNonceDrift in *; lia.
Qed.

(** X3.  When a send is accepted for a transaction that carries the nonce
    a successful query has just returned, the tracked nonce becomes that
    nonce plus one, and the next query returns that successor as long as
    the server's answer is less than 50 behind it: sends in a row get
    nonces in a row although the server lags. *)
Theorem X3_consecutive_nonces_under_lag account tx w r w1 d2 s2 d3 :
  PendingNonceAt account w = Returns (r, None) w1 ->
  0 <= r < maxUint64 ->
  To tx <> None ->
  Nonce tx = r ->
  bind.SendTransaction tx (ContractBackend (cb w1)) = Returns None d2 ->
  is_uint64 s2 ->
  r + 1 - s2 < 50 ->
  bind.PendingNonceAt account d2 = Returns (s2, None) d3 ->
  exists w2 w3,
    SendTransaction tx w1 = Returns None w2 /\
    localNonce (cb w2) = r + 1 /\
    PendingNonceAt account w2 = Returns (r + 1, None) w3.
Proof.
  unfold is_uint64, maxUint64. intros Hquery Hr Hto Hn Hsend Hs2 Hnear Hagain.
  pose proof (PendingNonceAt_tracked account w r w1 Hquery) as Htracked.
  assert (Hnext : Z.max (localNonce (cb w1)) (wrap64 (Nonce tx + 1)) = r + 1).
  { rewrite Hn, wrap64_small by lia. lia. }
  eexists. eexists. split; [ exact (SendTransaction_success tx w1 d2 Hto Hsend) | ].
  rewrite Hnext. split; [ reflexivity | ].
  rewrite (PendingNonceAt_local account _ s2 d3); cbn;
    [ reflexivity | lia | lia | lia | unfold maxNonceDrift; lia | exact Hagain ].
Qed.

(** X4.  When the delegate's send fails with an error that does not print
    "replacement transaction underpriced", [SendTransaction] returns that
    error and writes no field of the wrapper: the tracked nonce and the
    server nonce are as before. *)
Theorem X4_other_send_error_keeps_nonce tx w e d' :
  To tx <> None ->
  bind.SendTransaction tx (ContractBackend (cb w)) = Returns (Some e) d' ->
  Error e <> errStrReplacementTx ->
  SendTransaction tx w =
    Returns (Some e) (mkWorld (set_ContractBackend d' (cb w)) (clock w)).
Proof.
  intros Hto Hd Hmsg.
  rewrite (SendTransaction_failure tx w e d' Hto Hd).
  unfold isReplacementErr.
  destruct (String.eqb_spec (Error e) errStrReplacementTx) as [Heq | _];
    [ contradiction | reflexivity ].
Qed.


(** X6.  When the cache is stale and the delegate's query fails,
    [SuggestGasPrice] returns a nil price with the delegate's error, even
    if a number came along with it, and writes no field of the wrapper. *)
Theorem X6_gas_price_error_propagated w gp e d' :
  cacheStale w ->
  bind.SuggestGasPrice (ContractBackend (cb w)) = Returns (gp, Some e) d' ->
  exists w',
    SuggestGasPrice w = Returns (None, Some e) w' /\
    cb w' = set_ContractBackend d' (cb w).
Proof.
  intros Hstale Hd. eexists. split.
  - exact (SuggestGasPrice_miss_error w gp e d' Hstale Hd).
  - reflexivity.
Qed.

(** What a call of [SuggestGasPrice] that returns has done: it has left
    the nonces and the ceiling alone, and it hands back a price or an
    error, not both and not neither. *)
Lemma SuggestGasPrice_returns w r w' :
  SuggestGasPrice w = Returns r w' ->
  (localNonce (cb w') = localNonce (cb w) /\
   lastServerNonce (cb w') = lastServerNonce (cb w) /\
   maxPrice (cb w') = maxPrice (cb w)) /\
  ((exists p, r = (Some p, None)) \/ (exists e, r = (None, Some e))).
Proof.
  intros Hrun.
  destruct (fresh_or_stale w) as [[p [Hp Hage]] | Hstale].
  - rewrite (SuggestGasPrice_hit w p Hp Hage) in Hrun.
    injection Hrun as <- <-. cbn. split; [ auto | left; exists p; reflexivity ].
  - destruct (bind.SuggestGasPrice (ContractBackend (cb w))) as [[gp err] d' | ] eqn:Hd.
    2:{ rewrite (SuggestGasPrice_miss_panics w Hstale Hd) in Hrun. discriminate Hrun. }
    destruct err as [e | ].
    { rewrite (SuggestGasPrice_miss_error w gp e d' Hstale Hd) in Hrun.
      injection Hrun as <- <-. cbn. split; [ auto | right; exists e; reflexivity ]. }
    destruct gp as [g | ].
    2:{ rewrite (SuggestGasPrice_miss_nil w d' Hstale Hd) in Hrun. discriminate Hrun. }
    destruct (maxPrice (cb w)) as [mx | ] eqn:Hmx.
    + destruct (Z.lt_ge_cases mx (AddPercentage g 10)) as [Hover | Hfit].
      * rewrite (SuggestGasPrice_miss_clamped w g d' mx Hstale Hd Hmx Hover) in Hrun.
        injection Hrun as <- <-. cbn. split; [ auto | left; exists mx; reflexivity ].
      * rewrite (SuggestGasPrice_miss_cached w g d' Hstale Hd) in Hrun.
        2:{ intros m Hm. rewrite Hmx in Hm. injection Hm as <-. exact Hfit. }
        injection Hrun as <- <-. cbn.
        split; [ auto | left; eexists; reflexivity ].
    + rewrite (SuggestGasPrice_miss_cached w g d' Hstale Hd) in Hrun.
      2:{ intros m Hm. rewrite Hmx in Hm. discriminate Hm. }
      injection Hrun as <- <-. cbn.
      split; [ auto | left; eexists; reflexivity ].
Qed.

(** X7.  A call of [SuggestGasPrice] that returns hands back either a
    price and no error, or an error and no price. *)
Theorem X7_price_or_error price err w w' :
  SuggestGasPrice w = Returns (price, err) w' ->
  (exists p, price = Some p /\ err = None) \/
  (exists e, price = None /\ err = Some e).
Proof.
  intros Hrun.
  destruct (SuggestGasPrice_returns w _ w' Hrun) as [_ [[p Hp] | [e He]]].
  - left. exists p. injection Hp as -> ->. split; reflexivity.
  - right. exists e. injection He as -> ->. split; reflexivity.
Qed.

(** X8.  [SuggestGasPrice] does not touch the nonces or the ceiling. *)
Theorem X8_gas_price_query_keeps_nonces w r w' :
  SuggestGasPrice w = Returns r w' ->
  localNonce (cb w') = localNonce (cb w) /\
  lastServerNonce (cb w') = lastServerNonce (cb w) /\
  maxPrice (cb w') = maxPrice (cb w).
Proof.
  intros Hrun. exact (proj1 (SuggestGasPrice_returns w r w' Hrun)).
Qed.

(** X9.  [PendingNonceAt], whether the query succeeds or fails, does not
    touch the gas-price cache or the ceiling and does not read the
    clock. *)
Theorem X9_nonce_query_keeps_gas_price account w r w' :
  PendingNonceAt account w = Returns r w' ->
  gasPrice (cb w') = gasPrice (cb w) /\
  gasPriceUpdated (cb w') = gasPriceUpdated (cb w) /\
  maxPrice (cb w') = maxPrice (cb w) /\
  clock w' = clock w.
Proof.
  unfold PendingNonceAt. run_go.
  destruct (bind.PendingNonceAt account (ContractBackend (cb w))) as [[n err] d' | ];
    [ | discriminate ].
  destruct err as [e | ]; run_go.
  - intros [= <- <-]. cbn. auto.
  - destruct (localNonce (cb w) =? 0).
    + intros [= <- <-]. cbn. auto.
    + destruct ((localNonce (cb w) >? n) && (wrap64 (localNonce (cb w) - n) >=? maxNonceDrift)).
      * run_go. rewrite resetNonce_min. intros [= <- <-]. cbn. auto.
      * intros [= <- <-]. cbn. auto.
Qed.

(** X10.  [SendTransaction], whether the send is accepted or refused,
    does not touch the server nonce, the gas-price cache or the ceiling
    and does not read the clock. *)
Theorem X10_send_keeps_server_nonce_and_gas_price tx w r w' :
  SendTransaction tx w = Returns r w' ->
  lastServerNonce (cb w') = lastServerNonce (cb w) /\
  gasPrice (cb w') = gasPrice (cb w) /\
  gasPriceUpdated (cb w') = gasPriceUpdated (cb w) /\
  maxPrice (cb w') = maxPrice (cb w) /\
  clock w' = clock w.
Proof.
  destruct (To tx) as [a | ] eqn:Hto.
  2:{ rewrite (SendTransaction_no_recipient tx w Hto). discriminate. }
  assert (Hsome : To tx <> None) by congruence.
  destruct (bind.SendTransaction tx (ContractBackend (cb w))) as [[e | ] d' | ] eqn:Hd.
  - rewrite (SendTransaction_failure tx w e d' Hsome Hd).
    intros [= <- <-]. destruct (isReplacementErr e); cbn; auto.
  - rewrite (SendTransaction_success tx w d' Hsome Hd).
    intros [= <- <-]. cbn. auto 6.
  - unfold SendTransaction, getTxLogger. rewrite Hto. run_go. rewrite Hd.
    discriminate.
Qed.

Lemma perform_keeps_ceiling (call : Call) w w' :
  perform call w = Returns tt w' -> maxPrice (cb w') = maxPrice (cb w).
Proof.
  destruct call as [ | account | tx ]; unfold perform, bind, ret.
  - destruct (SuggestGasPrice w) as [r w1 | ] eqn:Hrun; [ | discriminate ].
    intros [= <-]. apply (SuggestGasPrice_returns w r w1 Hrun).
  - destruct (PendingNonceAt account w) as [r w1 | ] eqn:Hrun; [ | discriminate ].
    intros [= <-]. apply (PendingNonceAt_gas_frame account w r w1 Hrun).
  - destruct (SendTransaction tx w) as [r w1 | ] eqn:Hrun; [ | discriminate ].
    intros [= <-]. apply (SendTransaction_gas_frame tx w r w1 Hrun).
Qed.

(** X11.  No sequence of calls changes the ceiling the wrapper was
    constructed with. *)
Theorem X11_ceiling_is_constant calls : forall w w',
  performAll calls w = Returns tt w' ->
  maxPrice (cb w') = maxPrice (cb w).
Proof.
  induction calls as [ | call calls IH ]; intros w w'.
  - intros [= <-]. reflexivity.
  - cbn [performAll]. unfold bind at 1.
    destruct (perform call w) as [[] w1 | ] eqn:Hone; [ | discriminate ].
    intros Hrest. rewrite (IH w1 w' Hrest). exact (perform_keeps_ceiling call w w1 Hone).
Qed.

Lemma PendingNonceAt_untracked account w r w' :
  localNonce (cb w) = 0 ->
  PendingNonceAt account w = Returns r w' ->
  localNonce (cb w') = 0.
Proof.
  intros Hzero. unfold PendingNonceAt. run_go.
  destruct (bind.PendingNonceAt account (ContractBackend (cb w))) as [[n err] d' | ];
    [ | discriminate ].
  destruct err as [e | ]; run_go.
  - intros [= <- <-]. exact Hzero.
  - rewrite Hzero. cbn. intros [= <- <-]. exact Hzero.
Qed.

Lemma perform_untracked (call : Call) w w' :
  isSend call = false ->
  localNonce (cb w) = 0 ->
  perform call w = Returns tt w' ->
  localNonce (cb w') = 0.
Proof.
  intros Hquery Hzero.
  destruct call as [ | account | tx ]; [ | | discriminate Hquery ];
    unfold perform, bind, ret.
  - destruct (SuggestGasPrice w) as [r w1 | ] eqn:Hrun; [ | discriminate ].
    intros [= <-].
    destruct (SuggestGasPrice_returns w r w1 Hrun) as [[Hloc _] _]. congruence.
  - destruct (PendingNonceAt account w) as [r w1 | ] eqn:Hrun; [ | discriminate ].
    intros [= <-]. exact (PendingNonceAt_untracked account w r w1 Hzero Hrun).
Qed.

Lemma performAll_untracked calls : forall w w',
  forallb (fun c => negb (isSend c)) calls = true ->
  localNonce (cb w) = 0 ->
  performAll calls w = Returns tt w' ->
  localNonce (cb w') = 0.
Proof.
  induction calls as [ | call calls IH ]; intros w w' Hqueries Hzero.
  - intros [= <-]. exact Hzero.
  - cbn [forallb] in Hqueries. apply andb_prop in Hqueries as [Hone Hrest].
    apply negb_true_iff in Hone.
    cbn [performAll]. unfold bind at 1.
    destruct (perform call w) as [[] w1 | ] eqn:Hrun; [ | discriminate ].
    apply (IH w1 w' Hrest). exact (perform_untracked call w w1 Hone Hzero Hrun).
Qed.

(** X12.  As long as no transaction has been sent through the wrapper,
    nothing is tracked: after any sequence of gas-price and nonce queries
    on a wrapper whose [localNonce] is zero, a successful nonce query
    returns the server's pending nonce. *)
Theorem X12_queries_alone_track_nothing calls account w w' s d' :
  forallb (fun c => negb (isSend c)) calls = true ->
  localNonce (cb w) = 0 ->
  performAll calls w = Returns tt w' ->
  bind.PendingNonceAt account (ContractBackend (cb w')) = Returns (s, None) d' ->
  exists w'',
    PendingNonceAt account w' = Returns (s, None) w'' /\
    localNonce (cb w'') = 0.
Proof.
  intros Hqueries Hzero Hrun Hd.
  pose proof (performAll_untracked calls w w' Hqueries Hzero Hrun) as Hstill.
  eexists. split.
  - exact (PendingNonceAt_first account w' s d' Hstill Hd).
  - exact Hstill.
Qed.

(** X13.  A price that has just been cached is served again: when a call
    with a stale cache stores the marked-up price and the clock's next
    reading is less than a minute later, the next call returns the same
    price and the delegate has been called once, not twice. *)
Theorem X13_cached_price_served_again w g d' :
  cacheStale w ->
  bind.SuggestGasPrice (ContractBackend (cb w)) = Returns (Some g, None) d' ->
  (forall mx, maxPrice (cb w) = Some mx -> AddPercentage g 10 <= mx) ->
  clock_peek (clock_tick (clockAfterLookup w)) - clock_peek (clockAfterLookup w) < Minute ->
  exists w1 w2,
    SuggestGasPrice w = Returns (Some (AddPercentage g 10), None) w1 /\
    SuggestGasPrice w1 = Returns (Some (AddPercentage g 10), None) w2 /\
    ContractBackend (cb w1) = d' /\
    cb w2 = cb w1.
Proof.
  intros Hstale Hd Hfit Hsoon.
  pose (w1 := mkWorld (set_gasPrice (Some (AddPercentage g 10))
                         (set_gasPriceUpdated (clock_peek (clockAfterLookup w))
                            (set_ContractBackend d' (cb w))))
                      (clock_tick (clockAfterLookup w))).
  exists w1, (mkWorld (cb w1) (clock_tick (clock w1))).
  split; [ exact (SuggestGasPrice_miss_cached w g d' Hstale Hd Hfit) | ].
  split; [ | split; reflexivity ].
  apply (SuggestGasPrice_hit w1 (AddPercentage g 10)); [ reflexivity | exact Hsoon ].
Qed.

(** X14.  A call that ends with the delegate's error or with the ceiling
    does not refresh the cache: if the clock does not run backwards, the
    cache is as stale after the call as before, so the next call asks the
    delegate again. *)
Theorem X14_error_or_ceiling_leaves_cache_stale w gp err d' :
  cacheStale w ->
  clock_peek (clock w) <= clock_peek (clock_tick (clock w)) ->
  bind.SuggestGasPrice (ContractBackend (cb w)) = Returns (gp, err) d' ->
  (err <> None \/
   exists g mx, gp = Some g /\ err = None /\
                maxPrice (cb w) = Some mx /\ mx < AddPercentage g 10) ->
  exists r w',
    SuggestGasPrice w = Returns r w' /\
    gasPrice (cb w') = gasPrice (cb w) /\
    gasPriceUpdated (cb w') = gasPriceUpdated (cb w) /\
    cacheStale w'.
Proof.
  intros Hstale Hclock Hd Hcase.
  assert (Hafter : cacheStale (mkWorld (set_ContractBackend d' (cb w)) (clockAfterLookup w))).
  { unfold cacheStale, clockAfterLookup in *.
    destruct Hstale as [Hnone | Hold]; [ left; exact Hnone | ].
    destruct (gasPrice (cb w)) eqn:Hgp; [ right | left; exact Hgp ].
    change (Minute <= clock_peek (clock_tick (clock w)) - gasPriceUpdated (cb w)).
    lia. }
  destruct Hcase as [Herr | [g [mx [-> [-> [Hmx Hover]]]]]].
  - destruct err as [e | ]; [ | contradiction ].
    eexists. eexists.
    split; [ exact (SuggestGasPrice_miss_error w gp e d' Hstale Hd) | ].
    split; [ reflexivity | split; [ reflexivity | exact Hafter ] ].
  - eexists. eexists.
    split; [ exact (SuggestGasPrice_miss_clamped w g d' mx Hstale Hd Hmx Hover) | ].
    split; [ reflexivity | split; [ reflexivity | exact Hafter ] ].
Qed.

End Tracking.

(** ** The further properties on the scripted delegate *)

Lemma X1_witness :
  (is_uint64 8 /\ is_uint64 10 /\ 10 - 8 < 50) /\
  exists w',
    PendingNonceAt scripted.account cases.nearby = Returns (10, None) w' /\
    localNonce (cb w') = 10 /\
    lastServerNonce (cb w') = 8.
Proof.
  assert (H8 : is_uint64 8) by (unfold is_uint64, maxUint64; lia).
  assert (H10 : is_uint64 10) by (unfold is_uint64, maxUint64; lia).
  split; [ split; [ exact H8 | split; [ exact H10 | lia ] ] | ].
  apply (X1_query_keeps_tracked_nonce
           scripted.account cases.nearby 8 scripted.silent);
    [ exact H8 | exact H10 | discriminate | cbn; lia | reflexivity ].
Defined.

Lemma X2_witness :
  exists r w',
    PendingNonceAt scripted.account scripted.drifted = Returns (r, None) w' /\
    (r = 5 \/ r = 60) /\
    r - 5 < 50 /\
    lastServerNonce (cb w') = 5 /\
    localNonce (cb w') <= 60 /\
    localNonce (cb w') - 5 < 50 /\
    (localNonce (cb w') = 0 \/ localNonce (cb w') = r).
Proof.
  apply (X2_query_bounds_drift
           scripted.account scripted.drifted 5 scripted.silent);
    [ unfold is_uint64, maxUint64; lia
    | unfold is_uint64, maxUint64; cbn; lia
    | reflexivity ].
Defined.

Lemma X3_witness :
  PendingNonceAt scripted.account cases.lagging =
    Returns (7, None) cases.laggingQueried /\
  exists w2 w3,
    SendTransaction (scripted.transfer 7) cases.laggingQueried = Returns None w2 /\
    localNonce (cb w2) = 7 + 1 /\
    PendingNonceAt scripted.account w2 = Returns (7 + 1, None) w3.
Proof.
  assert (Hquery : PendingNonceAt scripted.account cases.lagging =
                   Returns (7, None) cases.laggingQueried) by reflexivity.
  split; [ exact Hquery | ].
  apply (X3_consecutive_nonces_under_lag
           scripted.account (scripted.transfer 7) cases.lagging 7
           cases.laggingQueried (scripted.mkNode [] [(7, None)] []) 7
           scripted.silent);
    [ exact Hquery
    | unfold maxUint64; lia
    | discriminate
    | reflexivity
    | reflexivity
    | unfold is_uint64, maxUint64; lia
    | lia
    | reflexivity ].
Defined.

Lemma X4_witness :
  Error scripted.errTimeout <> errStrReplacementTx /\
  SendTransaction (scripted.transfer 12) cases.rejected =
    Returns (Some scripted.errTimeout)
      (scripted.world (mkContractBackend 12 9 None 0 None scripted.silent) 0 1).
Proof.
  assert (Hother : Error scripted.errTimeout <> errStrReplacementTx) by discriminate.
  split; [ exact Hother | ].
  apply (X4_other_send_error_keeps_nonce
           (scripted.transfer 12) cases.rejected scripted.errTimeout scripted.silent);
    [ discriminate | reflexivity | exact Hother ].
Defined.


Lemma X6_witness :
  cacheStale cases.gasFailure /\
  exists w',
    SuggestGasPrice cases.gasFailure = Returns (None, Some scripted.errTimeout) w' /\
    cb w' = set_ContractBackend scripted.silent (cb cases.gasFailure).
Proof.
  assert (Hstale : cacheStale cases.gasFailure) by (right; vm_compute; discriminate).
  split; [ exact Hstale | ].
  apply (X6_gas_price_error_propagated
           cases.gasFailure (Some 77) scripted.errTimeout scripted.silent);
    [ exact Hstale | reflexivity ].
Defined.

Lemma X7_witness :
  (exists p, Some 100 = Some p /\ @None error = None) \/
  (exists e, Some 100 = @None bigInt /\ @None error = Some e).
Proof.
  apply (X7_price_or_error (Some 100) None scripted.sessionLater scripted.sessionEnd).
  vm_compute. reflexivity.
Defined.

Lemma X8_witness :
  localNonce (cb scripted.sessionEnd) = localNonce (cb scripted.sessionLater) /\
  lastServerNonce (cb scripted.sessionEnd) = lastServerNonce (cb scripted.sessionLater) /\
  maxPrice (cb scripted.sessionEnd) = maxPrice (cb scripted.sessionLater).
Proof.
  apply (X8_gas_price_query_keeps_nonces
           scripted.sessionLater (Some 100, None) scripted.sessionEnd).
  vm_compute. reflexivity.
Defined.

Lemma X9_witness :
  gasPrice (cb cases.firstQueried) = gasPrice (cb scripted.firstQuery) /\
  gasPriceUpdated (cb cases.firstQueried) = gasPriceUpdated (cb scripted.firstQuery) /\
  maxPrice (cb cases.firstQueried) = maxPrice (cb scripted.firstQuery) /\
  clock cases.firstQueried = clock scripted.firstQuery.
Proof.
  apply (X9_nonce_query_keeps_gas_price
           scripted.account scripted.firstQuery (7, None) cases.firstQueried).
  reflexivity.
Defined.

Lemma X10_witness :
  lastServerNonce (cb cases.accepted) = lastServerNonce (cb scripted.accepting) /\
  gasPrice (cb cases.accepted) = gasPrice (cb scripted.accepting) /\
  gasPriceUpdated (cb cases.accepted) = gasPriceUpdated (cb scripted.accepting) /\
  maxPrice (cb cases.accepted) = maxPrice (cb scripted.accepting) /\
  clock cases.accepted = clock scripted.accepting.
Proof.
  apply (X10_send_keeps_server_nonce_and_gas_price
           (scripted.transfer 12) scripted.accepting None cases.accepted).
  reflexivity.
Defined.

Lemma X11_witness :
  maxPrice (cb scripted.sessionLater) = maxPrice (cb scripted.session).
Proof.
  apply (X11_ceiling_is_constant scripted.sessionCalls
           scripted.session scripted.sessionLater).
  vm_compute. reflexivity.
Defined.

Lemma X12_witness :
  performAll cases.browsingCalls cases.browsing = Returns tt cases.browsed /\
  exists w'',
    PendingNonceAt scripted.account cases.browsed = Returns (9, None) w'' /\
    localNonce (cb w'') = 0.
Proof.
  assert (Hrun : performAll cases.browsingCalls cases.browsing =
                 Returns tt cases.browsed) by (vm_compute; reflexivity).
  split; [ exact Hrun | ].
  apply (X12_queries_alone_track_nothing
           cases.browsingCalls scripted.account cases.browsing cases.browsed
           9 scripted.silent);
    [ reflexivity | reflexivity | exact Hrun | reflexivity ].
Defined.

Lemma X13_witness :
  cacheStale scripted.quoting /\
  exists w1 w2,
    SuggestGasPrice scripted.quoting = Returns (Some (AddPercentage 1000 10), None) w1 /\
    SuggestGasPrice w1 = Returns (Some (AddPercentage 1000 10), None) w2 /\
    ContractBackend (cb w1) = scripted.silent /\
    cb w2 = cb w1.
Proof.
  assert (Hstale : cacheStale scripted.quoting) by (left; reflexivity).
  split; [ exact Hstale | ].
  apply (X13_cached_price_served_again scripted.quoting 1000 scripted.silent);
    [ exact Hstale | reflexivity | | vm_compute; reflexivity ].
  intros mx [= <-]. vm_compute. discriminate.
Defined.

Lemma X14_witness :
  cacheStale cases.gasAbove /\
  exists r w',
    SuggestGasPrice cases.gasAbove = Returns r w' /\
    gasPrice (cb w') = Some 88 /\
    gasPriceUpdated (cb w') = 0 /\
    cacheStale w'.
Proof.
  assert (Hstale : cacheStale cases.gasAbove) by (right; vm_compute; discriminate).
  split; [ exact Hstale | ].
  apply (X14_error_or_ceiling_leaves_cache_stale
           cases.gasAbove (Some 95) None scripted.silent);
    [ exact Hstale | vm_compute; discriminate | reflexivity | ].
  right. exists 95, 100. repeat split.
Defined.
